(** * XDSM figure scripts: the declarative diagram model

    The two scripts under [figures/XDSM] build XDSM figures by calling the
    methods of one builder object [x] in sequence: [add_system], [connect],
    [add_input], [add_output], [add_process] and finally [write].  Each
    script is embedded as the sequence of calls it performs, statement by
    statement; the builder the calls are made on is imported by the scripts
    and is modelled separately (module [Builder]). *)

From stdpp Require Import gmap strings list fin_maps.

Open Scope string_scope.
Open Scope list_scope.

(** ** Values the scripts pass *)

(** The system styles the scripts import: [OPT], [SOLVER], [FUNC], [IFUNC]
    (optimizer, solver, function, implicit function). *)
Inductive style : Type := OPT | SOLVER | FUNC | IFUNC.

(** A label argument is one raw string or a list (or tuple) of them. *)
Inductive text : Type :=
| Line (s : string)
| Lines (ls : list string).

(** A method call on the builder object [x].  Keyword arguments left out
    in the source take the default [False]. *)
Inductive method : Type :=
| add_system (node_name : string) (sty : style) (label : text) (stack faded : bool)
| connect (src target : string) (label : text) (stack : bool)
| add_input (name : string) (label : text)
| add_output (name : string) (label : text)
| add_process (systems : list string).

(** One statement of a script: the constructor call [x = XDSM(use_sfmath=..)],
    a method call [x.m(..)], or the closing [x.write(..)]. *)
Inductive stmt : Type :=
| XDSM (use_sfmath : bool)
| call (m : method)
| write (file_name : string) (build cleanup quiet : bool) (outdir : string).

Coercion call : method >-> stmt.

Definition script : Type := list stmt.

(** The statements of a script are written as a list of [stmt]; a method
    call stands for its statement. *)
Declare Scope script_scope.
Delimit Scope script_scope with script.
Notation "[ x ; y ; .. ; z ]" :=
  (@cons stmt x (@cons stmt y .. (@cons stmt z (@nil stmt)) ..)) : script_scope.

(** ** constraint_analysis_xdsm.py *)

Definition constraint_analysis_xdsm : script :=
  ([ XDSM true
  (* Systems *)
  ; add_system "opt" OPT (Lines ["\text{($T/W$) and ($W/S$)}"; "\text{Optimization}"]) false false
  ; add_system "aero" FUNC (Lines ["\text{Drag}"; "\text{Polar}"]) false false
  ; add_system "stall" IFUNC (Lines ["\text{Stall Speed}"; "\text{Constraint}"]) false false
  ; add_system "climb" IFUNC (Lines ["\text{Climb}"; "\text{Constraints}"]) true false
  ; add_system "cruise" IFUNC (Lines ["\text{Cruise}"; "\text{Constraint}"]) false false
  ; add_system "others" IFUNC (Lines ["\text{Other Mission}"; "\text{Constraints}"]) true false
  (* Connections *)
  ; connect "opt" "climb" (Line "(W/S)") true
  ; connect "opt" "cruise" (Line "(W/S)") false
  ; connect "opt" "others" (Line "(W/S)") true
  ; connect "aero" "stall" (Line "C_{D_0}, k") false
  ; connect "aero" "climb" (Line "C_{D_0}, k") true
  ; connect "aero" "cruise" (Line "C_{D_0}, k") false
  ; connect "aero" "others" (Line "C_{D_0}, k") true
  ; connect "stall" "opt" (Line "(W/S)_\text{stall}") false
  ; connect "climb" "opt" (Line "(T/W)_\text{climb}") true
  ; connect "cruise" "opt" (Line "(T/W)_\text{cruise}") false
  ; connect "others" "opt" (Line "(T/W)_\text{others}") true
  (* Inputs *)
  ; add_input "opt" (Line "(T/W)_0, (W/S)_0")
  ; add_input "aero" (Lines ["c_f, S_\text{wet}/S_\text{ref}"; "AR, e, C_{L_{\alpha=0}}"])
  ; add_input "stall" (Line "C_{L_\text{max}}, V_\text{stall}")
  ; add_input "climb" (Line "V_{R/C}")
  ; add_input "cruise" (Line "V_\text{cruise}")
  ; add_input "others" (Line "\mathbf{V_\text{others}}, ...")
  (* Outputs *)
  ; add_output "opt" (Line "(T/W)^*, (W/S)^*")
  (* Write file *)
  ; write "ConstraintAnalysisXDSM" true true false "."
  ])%script.

(** ** weight_estimation_xdsm.py *)

(** One entry of [figure_sets]: a five-element list read by position,
    [figure_set[0]] the figure name and [figure_set[1]] .. [figure_set[4]]
    the faded flags. *)
Record figure_set : Type := FigureSet {
  item0 : string;
  item1 : bool;
  item2 : bool;
  item3 : bool;
  item4 : bool
}.

Definition figure_sets : list figure_set :=
  [ FigureSet "WeightEstimationXDSM" false false false false
  ; FigureSet "MissionSegmentWeightXDSM" false true true true
  ; FigureSet "FuelWeightXDSM" true false true true
  ; FigureSet "TakeoffWeightXDSM" true true false true
  ; FigureSet "EmptyWeightXDSM" true true true false
  ; FigureSet "TakeoffEmptyWeightXDSM" true true false false
  ].

(** The body of [for figure_set in figure_sets]. *)
Definition loop_body (figure_set : figure_set) : script :=
  ([ XDSM true
  (* Systems *)
  ; add_system "mission_segment" FUNC
      (Lines ["\text{Mission Segment}"; "\text{Weight Fraction}"]) true (item1 figure_set)
  ; add_system "fuel" FUNC
      (Lines ["\text{Fuel Weight}"; "\text{Estimation}"]) false (item2 figure_set)
  ; add_system "takeoff" IFUNC
      (Lines ["\text{Takeoff Weight }"; "\text{Estimation}"]) false (item3 figure_set)
  ; add_system "empty" FUNC
      (Lines ["\text{Empty Weight}"; "\text{Estimation}"]) false (item4 figure_set)
  (* Connections *)
  ; connect "takeoff" "empty" (Line "W_\mathrm{TO}") false
  ; connect "mission_segment" "fuel" (Line "WFs") false
  ; connect "fuel" "takeoff" (Line "W_\mathrm{f}/W_\mathrm{TO}") false
  ; connect "empty" "takeoff" (Line "W_\mathrm{e}/W_\mathrm{TO}") false
  (* Processes *)
  ; add_process ["mission_segment"; "fuel"; "takeoff"; "empty"; "takeoff"]
  (* Inputs *)
  ; add_input "mission_segment" (Line "\text{Mission Data}")
  ; add_input "takeoff" (Line "W_\text{crew}, W_\text{payload}, W_{\mathrm{TO}_\text{init}}")
  (* Outputs *)
  ; add_output "takeoff" (Line "W_\mathrm{TO}^*")
  (* Write file *)
  ; write (item0 figure_set) true true false "."
  ])%script.

Definition weight_estimation_xdsm : script :=
  flat_map loop_body figure_sets.

(** ** The Diagrams a script builds *)

(** A script's statements split at each constructor call: the statements
    before the first one (made on no object) and, per constructed object,
    the constructor call followed by the method calls made on it. *)
Fixpoint split_diagrams (s : script) : script * list script :=
  match s with
  | [] => ([], [])
  | XDSM f :: s' =>
      let '(calls, ds) := split_diagrams s' in ([], (XDSM f :: calls) :: ds)
  | c :: s' =>
      let '(calls, ds) := split_diagrams s' in (c :: calls, ds)
  end.

Definition diagrams (s : script) : list script := snd (split_diagrams s).

(** Every Diagram built by either script. *)
Definition built_diagrams : list script :=
  diagrams constraint_analysis_xdsm ++ diagrams weight_estimation_xdsm.

(** The identifiers a statement declares and the identifiers it refers to. *)
Definition declares (c : stmt) : list string :=
  match c with
  | call (add_system n _ _ _ _) => [n]
  | _ => []
  end.

Definition references (c : stmt) : list string :=
  match c with
  | call (connect s t _ _) => [s; t]
  | call (add_input n _) => [n]
  | call (add_output n _) => [n]
  | call (add_process ids) => ids
  | _ => []
  end.

Definition declared (d : script) : list string := flat_map declares d.
Definition referenced (d : script) : list string := flat_map references d.

(** The Connections, Processes, faded flags and written figures of the
    calls made on one Diagram, in call order. *)
Definition edges (d : script) : list (string * string) :=
  flat_map (fun c => match c with call (connect s t _ _) => [(s, t)] | _ => [] end) d.

Definition processes (d : script) : list (list string) :=
  flat_map (fun c => match c with call (add_process ids) => [ids] | _ => [] end) d.

Definition faded_flags (d : script) : list (string * bool) :=
  flat_map (fun c => match c with call (add_system n _ _ _ f) => [(n, f)] | _ => [] end) d.

Definition written (d : script) : list (string * string) :=
  flat_map (fun c => match c with write n _ _ _ o => [(o, n)] | _ => [] end) d.

Definition method_calls (d : script) : list method :=
  flat_map (fun c => match c with call m => [m] | _ => [] end) d.

(** The consecutive pairs of a Process: the hops of the overlay. *)
Fixpoint hops (p : list string) : list (string * string) :=
  match p with
  | a :: (b :: _) as rest => (a, b) :: hops rest
  | _ => []
  end.

(** Referential closure of the calls made on one Diagram: whatever a call
    refers to has been declared by an earlier [add_system] call. *)
Definition referential_closure (d : script) : Prop :=
  ∀ before c after, d = before ++ c :: after →
    ∀ i, i ∈ references c → i ∈ declared before.

Fixpoint closed_from (known : list string) (d : script) : bool :=
  match d with
  | [] => true
  | c :: d' =>
      forallb (fun i => bool_decide (i ∈ known)) (references c)
      && closed_from (known ++ declares c) d'
  end.

(** ** The builder the scripts call *)

Inductive error : Type :=
| DuplicateIdentifier
| UnknownSystem
| ExternalRenderingFailure.

(** What a method call does: it returns, or it raises. *)
Inductive outcome : Type :=
| Returned
| Raised (e : error).

Record System : Type := {
  sys_id : string;
  sys_role : style;
  sys_labels : text;
  sys_stacked : bool;
  sys_faded : bool
}.

Record Connection : Type := {
  conn_from : string;
  conn_to : string;
  conn_label : text;
  conn_stacked : bool
}.

Record Annotation : Type := {
  ann_id : string;
  ann_labels : text
}.

Record Diagram : Type := {
  math_font : bool;
  systems : list System;
  connections : list Connection;
  inputs : list Annotation;
  outputs : list Annotation;
  process : option (list string)
}.

Definition system_ids (d : Diagram) : list string := sys_id <$> systems d.

Definition find_system (i : string) (d : Diagram) : option System :=
  List.find (fun s => bool_decide (sys_id s = i)) (systems d).

(** The Diagram invariants: identifiers are unique, and every Connection
    endpoint, Input, Output and Process entry names a declared System. *)
Record well_formed (d : Diagram) : Prop := {
  wf_unique : NoDup (system_ids d);
  wf_connections :
    ∀ c, c ∈ connections d → conn_from c ∈ system_ids d ∧ conn_to c ∈ system_ids d;
  wf_inputs : ∀ a, a ∈ inputs d → ann_id a ∈ system_ids d;
  wf_outputs : ∀ a, a ∈ outputs d → ann_id a ∈ system_ids d;
  wf_process : ∀ p i, process d = Some p → i ∈ p → i ∈ system_ids d
}.

Module Builder.

(** Modelled from the spec: the builder class the scripts import is not
    part of the sources; [create] is its constructor, giving a new empty
    Diagram with the typesetting-style flag. *)
Definition create (style_options : bool) : Diagram :=
  {| math_font := style_options; systems := []; connections := [];
     inputs := []; outputs := []; process := None |}.

(** Modelled from the spec: the builder's [add_system], absent from the
    sources.  It registers a System after the others and fails with
    DuplicateIdentifier if the id is already present. *)
Definition add_system (id : string) (role : style) (labels : text)
    (stacked faded : bool) (d : Diagram) : outcome * Diagram :=
  if bool_decide (id ∈ system_ids d) then (Raised DuplicateIdentifier, d)
  else
    (Returned,
     {| math_font := math_font d;
        systems := systems d ++
          [{| sys_id := id; sys_role := role; sys_labels := labels;
              sys_stacked := stacked; sys_faded := faded |}];
        connections := connections d;
        inputs := inputs d; outputs := outputs d; process := process d |}).

(** Modelled from the spec: the builder's [connect], absent from the
    sources.  It registers a Connection and fails with UnknownSystem if
    either endpoint is undeclared. *)
Definition connect (from_id to_id : string) (label : text) (stacked : bool)
    (d : Diagram) : outcome * Diagram :=
  if bool_decide (from_id ∈ system_ids d) && bool_decide (to_id ∈ system_ids d)
  then
    (Returned,
     {| math_font := math_font d; systems := systems d;
        connections := connections d ++
          [{| conn_from := from_id; conn_to := to_id; conn_label := label;
              conn_stacked := stacked |}];
        inputs := inputs d; outputs := outputs d; process := process d |})
  else (Raised UnknownSystem, d).

(** Modelled from the spec: the builder's [add_input], absent from the
    sources.  It attaches the annotation to an existing System and fails
    with UnknownSystem if the id is undeclared. *)
Definition add_input (id : string) (labels : text) (d : Diagram)
    : outcome * Diagram :=
  if bool_decide (id ∈ system_ids d) then
    (Returned,
     {| math_font := math_font d; systems := systems d;
        connections := connections d;
        inputs := inputs d ++ [{| ann_id := id; ann_labels := labels |}];
        outputs := outputs d; process := process d |})
  else (Raised UnknownSystem, d).

(** Modelled from the spec: the builder's [add_output], absent from the
    sources; as [add_input], on the Outputs. *)
Definition add_output (id : string) (labels : text) (d : Diagram)
    : outcome * Diagram :=
  if bool_decide (id ∈ system_ids d) then
    (Returned,
     {| math_font := math_font d; systems := systems d;
        connections := connections d; inputs := inputs d;
        outputs := outputs d ++ [{| ann_id := id; ann_labels := labels |}];
        process := process d |})
  else (Raised UnknownSystem, d).

(** Modelled from the spec: the builder's [add_process], absent from the
    sources.  It records the execution-order overlay and fails with
    UnknownSystem if any id is undeclared.  The spec leaves a second call
    to the implementer; here it overwrites the recorded Process. *)
Definition add_process (ordered_ids : list string) (d : Diagram)
    : outcome * Diagram :=
  if forallb (fun i => bool_decide (i ∈ system_ids d)) ordered_ids then
    (Returned,
     {| math_font := math_font d; systems := systems d;
        connections := connections d; inputs := inputs d;
        outputs := outputs d; process := Some ordered_ids |})
  else (Raised UnknownSystem, d).

(** The files of one figure in the output directory. *)
Definition source_path (output_directory name : string) : string :=
  output_directory +:+ "/" +:+ name +:+ ".tex".
Definition artifact_path (output_directory name : string) : string :=
  output_directory +:+ "/" +:+ name +:+ ".pdf".
Definition log_path (output_directory name : string) : string :=
  output_directory +:+ "/" +:+ name +:+ ".log".

Definition file_set (output_directory name : string) : list string :=
  [ source_path output_directory name
  ; artifact_path output_directory name
  ; log_path output_directory name ].

Section Rendering.

(** The external rendering collaborator: [render] lays out a Diagram
    under a figure name and gives the typeset source; [toolchain]
    compiles a source in the state [Env] of the outside world and, when
    it succeeds, gives the compiled artifact and an intermediate build
    file. *)
Context {Env : Type}.
Variable render : string → Diagram → string.
Variable toolchain : Env → string → Env * option (string * string).

(** Modelled from the spec: the builder's finalize operation (the
    [write] method), absent from the sources.  It emits the typeset
    source into the output directory, optionally compiles it to the
    final artifact and removes the intermediate build file; a failure
    of the toolchain is surfaced as ExternalRenderingFailure.  The
    Diagram itself is only read. *)
Definition finalize (name output_directory : string)
    (compile cleanup quiet : bool) (d : Diagram)
    (files : gmap string string) (env : Env)
    : outcome * (gmap string string * Env) :=
  let source := render name d in
  let files1 := <[source_path output_directory name := source]> files in
  if compile then
    match toolchain env source with
    | (env', Some (artifact, log)) =>
        let files2 := <[artifact_path output_directory name := artifact]> files1 in
        let files3 := <[log_path output_directory name := log]> files2 in
        (Returned,
         (if cleanup then delete (log_path output_directory name) files3
          else files3, env'))
    | (env', None) => (Raised ExternalRenderingFailure, (files1, env'))
    end
  else (Returned, (files1, env)).

End Rendering.

End Builder.

(** ** Running a script *)

(** The builder operation a method call stands for. *)
Definition invoke (m : method) : Diagram → outcome * Diagram :=
  match m with
  | add_system n sty l st fd => Builder.add_system n sty l st fd
  | connect s t l st => Builder.connect s t l st
  | add_input n l => Builder.add_input n l
  | add_output n l => Builder.add_output n l
  | add_process ids => Builder.add_process ids
  end.

(** How a run ends: every statement returned, a builder call raised, or a
    method was called while [x] was bound to no object. *)
Inductive status : Type :=
| Completed
| Aborted (e : error)
| NoObject.

Definition finished (o : outcome) : status :=
  match o with
  | Returned => Completed
  | Raised e => Aborted e
  end.

(** The method calls of one Diagram applied in sequence to the object,
    stopping at the first that raises. *)
Fixpoint build (ms : list method) (d : Diagram) : status * Diagram :=
  match ms with
  | [] => (Completed, d)
  | m :: ms' =>
      match invoke m d with
      | (Returned, d') => build ms' d'
      | (Raised e, d') => (Aborted e, d')
      end
  end.

Section Run.

Context {Env : Type}.
Variable render : string → Diagram → string.
Variable toolchain : Env → string → Env * option (string * string).

(** The state a script runs in: the object the variable [x] is bound to,
    the files of the output directories and the outside world of the
    toolchain. *)
Record world : Type := World {
  x : option Diagram;
  files : gmap string string;
  env : Env
}.

Definition on_object (w : world) (m : Diagram → outcome * Diagram)
    : status * world :=
  match x w with
  | None => (NoObject, w)
  | Some d =>
      let '(o, d') := m d in
      (finished o, {| x := Some d'; files := files w; env := env w |})
  end.

Definition step (c : stmt) (w : world) : status * world :=
  match c with
  | XDSM f =>
      (Completed,
       {| x := Some (Builder.create f); files := files w; env := env w |})
  | call m => on_object w (invoke m)
  | write n b cl q o =>
      match x w with
      | None => (NoObject, w)
      | Some d =>
          let '(r, (files', env')) :=
            Builder.finalize render toolchain n o b cl q d (files w) (env w) in
          (finished r, {| x := Some d; files := files'; env := env' |})
      end
  end.

Fixpoint exec (s : script) (w : world) : status * world :=
  match s with
  | [] => (Completed, w)
  | c :: s' =>
      match step c w with
      | (Completed, w') => exec s' w'
      | stopped => stopped
      end
  end.

(** A script starts with [x] unbound. *)
Definition start (fs : gmap string string) (e : Env) : world :=
  {| x := None; files := fs; env := e |}.

End Run.

(** The Diagram one iteration of the weight-estimation loop builds: the
    method calls of the body applied to a fresh object. *)
Definition figure (fs : figure_set) : Diagram :=
  (build (method_calls (loop_body fs)) (Builder.create true)).2.

(** A statement with what varies between the figure variants blanked out:
    the faded flag of a System and the name of the written figure. *)
Definition erase_variant (c : stmt) : stmt :=
  match c with
  | call (add_system n sty l st _) => call (add_system n sty l st false)
  | write _ b cl q o => write "" b cl q o
  | c => c
  end.

(** The files the [write] calls of a script go to. *)
Definition written_files (s : script) : list string :=
  flat_map (fun on => Builder.file_set on.1 on.2) (written s).

(** A path closes a loop at position [k] when its last identifier repeats
    the identifier at the earlier position [k]. *)
Definition closes_at (k : nat) (p : list string) : Prop :=
  k < length p - 1 ∧ p !! k = last p.

(** ** More views of the calls made on one Diagram *)



(** The Systems declared with style [IFUNC]. *)
Definition implicit_systems (d : script) : list string :=
  flat_map (fun c => match c with call (add_system n IFUNC _ _ _) => [n] | _ => [] end) d.

(** The identifiers passed to [add_input] and to [add_output]. *)
Definition input_targets (d : script) : list string :=
  flat_map (fun c => match c with call (add_input n _) => [n] | _ => [] end) d.

Definition output_targets (d : script) : list string :=
  flat_map (fun c => match c with call (add_output n _) => [n] | _ => [] end) d.

(** The faded flags of a [figure_sets] entry, [figure_set[1:]]. *)
Definition flags (fs : figure_set) : bool * bool * bool * bool :=
  (item1 fs, item2 fs, item3 fs, item4 fs).

#[local] Instance figure_set_eq_dec : EqDecision figure_set.
Proof. solve_decision. Defined.

(** A run in which nothing but the external rendering failed. *)
Definition only_rendering_can_fail (st : status) : Prop :=
  st = Completed ∨ st = Aborted ExternalRenderingFailure.

(** * Properties of the scripts *)

Ltac by_computation :=
  apply (proj1 (bool_decide_eq_true _)); vm_compute; reflexivity.

(** ** Checking closure by computation *)

Lemma declared_app (d1 d2 : script) :
  declared (d1 ++ d2) = declared d1 ++ declared d2.
Proof. unfold declared. apply flat_map_app. Qed.

Lemma closed_from_sound (d : script) : ∀ known,
  closed_from known d = true →
  ∀ before c after, d = before ++ c :: after →
    ∀ i, i ∈ references c → i ∈ known ++ declared before.
Proof.
  induction d as [|c0 d IH]; intros known Hc before c after Hd i Hi.
  - destruct before; discriminate.
  - simpl in Hc. apply andb_true_iff in Hc as [Hrefs Hrest].
    destruct before as [|b before]; simpl in Hd; injection Hd as -> ->.
    + rewrite forallb_forall in Hrefs.
      apply list_elem_of_In, Hrefs, bool_decide_eq_true in Hi.
      rewrite app_nil_r. exact Hi.
    + specialize (IH _ Hrest before c after eq_refl i Hi).
      change (declared (b :: before)) with (declares b ++ declared before).
      rewrite app_assoc. exact IH.
Qed.

Lemma closed_from_closure (d : script) :
  closed_from [] d = true → referential_closure d.
Proof.
  intros Hc before c after Hd i Hi.
  exact (closed_from_sound d [] Hc before c after Hd i Hi).
Qed.

Lemma closure_referenced (d : script) :
  referential_closure d → ∀ i, i ∈ referenced d → i ∈ declared d.
Proof.
  intros Hd i Hi. unfold referenced in Hi.
  apply list_elem_of_In, in_flat_map in Hi as (c & Hc & Hi).
  apply in_split in Hc as (before & after & ->).
  rewrite declared_app. apply elem_of_app. left.
  apply (Hd before c after eq_refl). by apply list_elem_of_In.
Qed.

Lemma forallb_elem_of {A} (f : A → bool) (l : list A) (a : A) :
  forallb f l = true → a ∈ l → f a = true.
Proof.
  intros Hf Ha. rewrite forallb_forall in Hf. by apply Hf, list_elem_of_In.
Qed.

Lemma built_diagrams_eq :
  built_diagrams = constraint_analysis_xdsm :: (loop_body <$> figure_sets).
Proof. reflexivity. Qed.

Lemma weight_estimation_diagrams :
  diagrams weight_estimation_xdsm = loop_body <$> figure_sets.
Proof. reflexivity. Qed.

(** ** Referential closure and unique identifiers *)

(** C1. In every Diagram built by either script, each identifier passed to
    [connect], [add_input], [add_output] or [add_process] was declared by
    an earlier [add_system] call on the same Diagram; in particular every
    referenced identifier is among the declared ones. *)
Theorem C1_referential_closure (d : script) :
  d ∈ built_diagrams →
  referential_closure d ∧ (∀ i, i ∈ referenced d → i ∈ declared d).
Proof.
  intros Hd.
  assert (Hall : forallb (closed_from []) built_diagrams = true)
    by (vm_compute; reflexivity).
  pose proof (closed_from_closure d (forallb_elem_of _ _ _ Hall Hd)) as Hc.
  split; [exact Hc | exact (closure_referenced d Hc)].
Qed.

Lemma C1_witness :
  referential_closure constraint_analysis_xdsm
  ∧ (∀ i, i ∈ referenced constraint_analysis_xdsm
          → i ∈ declared constraint_analysis_xdsm).
Proof.
  apply (C1_referential_closure constraint_analysis_xdsm).
  rewrite built_diagrams_eq. apply list_elem_of_here.
Defined.

(** C2. Within each Diagram built by either script the identifiers passed
    to [add_system] are pairwise distinct. *)
Theorem C2_unique_identifiers (d : script) :
  d ∈ built_diagrams → NoDup (declared d).
Proof.
  intros Hd.
  assert (Hall : forallb (fun d => bool_decide (NoDup (declared d)))
                   built_diagrams = true)
    by (vm_compute; reflexivity).
  exact (proj1 (bool_decide_eq_true _) (forallb_elem_of _ _ _ Hall Hd)).
Qed.

Lemma C2_witness :
  NoDup (declared (loop_body (FigureSet "FuelWeightXDSM" true false true true))).
Proof.
  apply (C2_unique_identifiers
           (loop_body (FigureSet "FuelWeightXDSM" true false true true))).
  rewrite built_diagrams_eq. do 3 apply list_elem_of_further. apply list_elem_of_here.
Defined.

(** ** The Process of the weight-estimation figures *)

(** C3, as stated, fails: the recorded Process starts at mission_segment
    and ends at takeoff, so its last identifier does not repeat the first. *)
Lemma C3_counterexample :
  processes (loop_body (FigureSet "WeightEstimationXDSM" false false false false))
    = [["mission_segment"; "fuel"; "takeoff"; "empty"; "takeoff"]]
  ∧ head ["mission_segment"; "fuel"; "takeoff"; "empty"; "takeoff"]
      = Some "mission_segment"
  ∧ last ["mission_segment"; "fuel"; "takeoff"; "empty"; "takeoff"]
      = Some "takeoff"
  ∧ ¬ closes_at 0 ["mission_segment"; "fuel"; "takeoff"; "empty"; "takeoff"].
Proof.
  repeat split; try reflexivity.
  intros [_ H]. vm_compute in H. discriminate H.
Qed.

(** C3, amended. The Process recorded by [add_process] in each Diagram of
    the weight-estimation script is one ordered sequence of declared System
    identifiers whose last identifier repeats the third one (takeoff), not
    the first: after the lead-in mission_segment, fuel it closes the loop
    takeoff, empty, takeoff. *)
Theorem C3_process_closes_loop (d : script) :
  d ∈ diagrams weight_estimation_xdsm →
  ∃ p, processes d = [p]
     ∧ (∀ i, i ∈ p → i ∈ declared d)
     ∧ p = ["mission_segment"; "fuel"] ++ ["takeoff"; "empty"; "takeoff"]
     ∧ closes_at 2 p
     ∧ ¬ closes_at 0 p.
Proof.
  rewrite weight_estimation_diagrams.
  intros (fs & -> & _)%list_elem_of_fmap.
  eexists. split; [reflexivity|].
  split.
  - apply Forall_forall. change (declared (loop_body fs))
      with ["mission_segment"; "fuel"; "takeoff"; "empty"].
    repeat (apply Forall_cons; split; [set_solver|]). apply Forall_nil_2.
  - split; [reflexivity|]. split.
    + split; [simpl; lia | reflexivity].
    + intros [_ H]. vm_compute in H. discriminate H.
Qed.

Lemma C3_witness :
  ∃ p, processes (loop_body (FigureSet "EmptyWeightXDSM" true true true false)) = [p]
     ∧ (∀ i, i ∈ p →
          i ∈ declared (loop_body (FigureSet "EmptyWeightXDSM" true true true false)))
     ∧ p = ["mission_segment"; "fuel"] ++ ["takeoff"; "empty"; "takeoff"]
     ∧ closes_at 2 p
     ∧ ¬ closes_at 0 p.
Proof.
  apply (C3_process_closes_loop
           (loop_body (FigureSet "EmptyWeightXDSM" true true true false))).
  rewrite weight_estimation_diagrams.
  do 4 apply list_elem_of_further. apply list_elem_of_here.
Defined.

(** C9. In every Diagram of the weight-estimation script, the consecutive
    pairs of the Process are mission_segment to fuel, fuel to takeoff,
    takeoff to empty and empty to takeoff, and each of them is a Connection
    declared by [connect] on the same Diagram. *)
Theorem C9_process_follows_connections (d : script) (p : list string) :
  d ∈ diagrams weight_estimation_xdsm →
  p ∈ processes d →
  hops p = [ ("mission_segment", "fuel"); ("fuel", "takeoff")
           ; ("takeoff", "empty"); ("empty", "takeoff") ]
  ∧ ∀ h, h ∈ hops p → h ∈ edges d.
Proof.
  rewrite weight_estimation_diagrams.
  intros (fs & -> & _)%list_elem_of_fmap Hp.
  change (processes (loop_body fs))
    with [["mission_segment"; "fuel"; "takeoff"; "empty"; "takeoff"]] in Hp.
  apply list_elem_of_singleton in Hp as ->.
  split; [reflexivity|].
  apply Forall_forall.
  change (edges (loop_body fs))
    with [ ("takeoff", "empty"); ("mission_segment", "fuel")
         ; ("fuel", "takeoff"); ("empty", "takeoff") ].
  repeat (apply Forall_cons; split; [set_solver|]). apply Forall_nil_2.
Qed.

Lemma C9_witness :
  hops ["mission_segment"; "fuel"; "takeoff"; "empty"; "takeoff"]
    = [ ("mission_segment", "fuel"); ("fuel", "takeoff")
      ; ("takeoff", "empty"); ("empty", "takeoff") ]
  ∧ ∀ h, h ∈ hops ["mission_segment"; "fuel"; "takeoff"; "empty"; "takeoff"] →
         h ∈ edges (loop_body (FigureSet "TakeoffWeightXDSM" true true false true)).
Proof.
  apply (C9_process_follows_connections
           (loop_body (FigureSet "TakeoffWeightXDSM" true true false true))).
  - rewrite weight_estimation_diagrams.
    do 3 apply list_elem_of_further. apply list_elem_of_here.
  - apply list_elem_of_here.
Defined.

(** C8. Every Diagram built by either script records at most one Process:
    the constraint-analysis Diagram receives no [add_process] call and
    each of the six weight-estimation Diagrams receives exactly one. *)
Theorem C8_at_most_one_process :
  Forall (fun d => processes d = []) (diagrams constraint_analysis_xdsm)
  ∧ Forall (fun d => length (processes d) = 1) (diagrams weight_estimation_xdsm)
  ∧ length (diagrams weight_estimation_xdsm) = length figure_sets
  ∧ Forall (fun d => (length (processes d) ≤ 1)%nat) built_diagrams.
Proof.
  split; [|split; [|split]].
  - repeat constructor.
  - repeat constructor.
  - reflexivity.
  - apply Forall_forall. intros d Hd.
    assert (Hall : forallb (fun d => Nat.leb (length (processes d)) 1)
                     built_diagrams = true) by reflexivity.
    exact (proj1 (Nat.leb_le _ _) (forallb_elem_of _ _ _ Hall Hd)).
Qed.

(** * Properties of the builder *)

Lemma create_well_formed (f : bool) : well_formed (Builder.create f).
Proof.
  split; simpl; try (intros ? H; by apply elem_of_nil in H).
  - apply NoDup_nil_2.
  - intros p i H. discriminate H.
Qed.

Lemma add_system_ids id role labels stacked faded d d' :
  Builder.add_system id role labels stacked faded d = (Returned, d') →
  (id ∉ system_ids d) ∧ system_ids d' = system_ids d ++ [id]
  ∧ connections d' = connections d ∧ inputs d' = inputs d
  ∧ outputs d' = outputs d ∧ process d' = process d.
Proof.
  unfold Builder.add_system. case_bool_decide as Hin; [discriminate|].
  intros [= <-]. unfold system_ids. simpl. rewrite fmap_app. done.
Qed.

Lemma invoke_raised_unchanged (m : method) (d d' : Diagram) (e : error) :
  invoke m d = (Raised e, d') → d' = d.
Proof.
  destruct m; simpl;
    [ unfold Builder.add_system | unfold Builder.connect
    | unfold Builder.add_input | unfold Builder.add_output
    | unfold Builder.add_process ];
    match goal with |- context [if ?b then _ else _] => destruct b end;
    congruence.
Qed.

Lemma invoke_well_formed (m : method) (d d' : Diagram) (o : outcome) :
  well_formed d → invoke m d = (o, d') → well_formed d'.
Proof.
  intros [Hu Hc Hi Ho Hp] Hm. destruct o as [|e];
    [| by rewrite (invoke_raised_unchanged m d d' e Hm)].
  destruct m as [n sty l st fd | s t l st | n l | n l | ids]; simpl in Hm.
  - apply add_system_ids in Hm as (Hfresh & Hids & Hc' & Hi' & Ho' & Hp').
    split; rewrite ?Hids, ?Hc', ?Hi', ?Ho', ?Hp'.
    + apply NoDup_app. split; [done|]. split; [|apply NoDup_singleton].
      intros i Hin ->%list_elem_of_singleton. done.
    + intros c Hin. destruct (Hc c Hin). split; apply elem_of_app; by left.
    + intros a Hin. apply elem_of_app. left. by apply Hi.
    + intros a Hin. apply elem_of_app. left. by apply Ho.
    + intros p i Hin Hip. apply elem_of_app. left. by apply (Hp p).
  - unfold Builder.connect in Hm.
    destruct (bool_decide (s ∈ system_ids d)) eqn:Hs; [|discriminate].
    destruct (bool_decide (t ∈ system_ids d)) eqn:Ht; [|discriminate].
    apply bool_decide_eq_true in Hs, Ht. injection Hm as <-.
    split; try done. simpl. intros c [Hin | ->%list_elem_of_singleton]%elem_of_app.
    + by apply Hc.
    + done.
  - unfold Builder.add_input in Hm. case_bool_decide as Hn; [|discriminate].
    injection Hm as <-.
    split; try done. simpl. intros a [Hin | ->%list_elem_of_singleton]%elem_of_app.
    + by apply Hi.
    + done.
  - unfold Builder.add_output in Hm. case_bool_decide as Hn; [|discriminate].
    injection Hm as <-.
    split; try done. simpl. intros a [Hin | ->%list_elem_of_singleton]%elem_of_app.
    + by apply Ho.
    + done.
  - unfold Builder.add_process in Hm.
    destruct (forallb _ ids) eqn:Hall; [|discriminate].
    injection Hm as <-.
    split; try done. simpl. intros p i [= <-] Hin.
    exact (proj1 (bool_decide_eq_true _) (forallb_elem_of _ _ _ Hall Hin)).
Qed.

(** Whatever calls are made, and whether or not one raises, the object
    stays a well-formed Diagram. *)
Lemma build_well_formed (ms : list method) : ∀ d,
  well_formed d → well_formed (build ms d).2.
Proof.
  induction ms as [|m ms IH]; intros d Hd; simpl; [done|].
  destruct (invoke m d) as [[|e] d'] eqn:Hm.
  - apply IH. exact (invoke_well_formed m d d' Returned Hd Hm).
  - simpl. exact (invoke_well_formed m d d' (Raised e) Hd Hm).
Qed.

(** The figure every iteration of the weight-estimation loop builds is a
    well-formed Diagram. *)
Lemma figure_well_formed (fs : figure_set) : well_formed (figure fs).
Proof. apply build_well_formed, create_well_formed. Qed.

(** ** Failing calls *)

(** C5. On every Diagram, [connect], [add_input], [add_output] and
    [add_process] called with an identifier that [add_system] has not
    declared fail with UnknownSystem and leave the Diagram, so its declared
    Systems too, exactly as it was; [connect] from "missing" to "opt" on an
    empty Diagram fails that way and the Diagram keeps no Connection. *)
Theorem C5_unknown_system (d : Diagram) :
  (∀ s t l st, ¬ (s ∈ system_ids d ∧ t ∈ system_ids d) →
     Builder.connect s t l st d = (Raised UnknownSystem, d))
  ∧ (∀ i l, i ∉ system_ids d →
     Builder.add_input i l d = (Raised UnknownSystem, d))
  ∧ (∀ i l, i ∉ system_ids d →
     Builder.add_output i l d = (Raised UnknownSystem, d))
  ∧ (∀ ids i, i ∈ ids → i ∉ system_ids d →
     Builder.add_process ids d = (Raised UnknownSystem, d))
  ∧ (∀ f,
     Builder.connect "missing" "opt" (Line "x") false (Builder.create f)
       = (Raised UnknownSystem, Builder.create f)
     ∧ connections (Builder.create f) = []).
Proof.
  repeat apply conj.
  - intros s t l st Hn. unfold Builder.connect.
    destruct (bool_decide (s ∈ system_ids d)) eqn:Hs; [|done].
    destruct (bool_decide (t ∈ system_ids d)) eqn:Ht; [|done].
    apply bool_decide_eq_true in Hs, Ht. by destruct Hn.
  - intros i l Hn. unfold Builder.add_input. by rewrite bool_decide_eq_false_2.
  - intros i l Hn. unfold Builder.add_output. by rewrite bool_decide_eq_false_2.
  - intros ids i Hi Hn. unfold Builder.add_process.
    destruct (forallb _ ids) eqn:Hall; [|done].
    destruct Hn.
    exact (proj1 (bool_decide_eq_true _) (forallb_elem_of _ _ _ Hall Hi)).
  - intros f. split; reflexivity.
Qed.

Lemma C5_witness :
  Builder.add_process ["opt"; "missing"]
    (Builder.add_system "opt" OPT (Lines ["Opt"]) false false (Builder.create true)).2
  = (Raised UnknownSystem,
     (Builder.add_system "opt" OPT (Lines ["Opt"]) false false (Builder.create true)).2).
Proof.
  refine (proj1 (proj2 (proj2 (proj2 (C5_unknown_system
           (Builder.add_system "opt" OPT (Lines ["Opt"]) false false
              (Builder.create true)).2)))) ["opt"; "missing"] "missing" _ _).
  - apply list_elem_of_further, list_elem_of_here.
  - intros H. apply list_elem_of_singleton in H. discriminate H.
Defined.

(** C6. On every Diagram, [add_system] called with an identifier already
    present fails with DuplicateIdentifier and leaves the Diagram, so the
    original System's role, labels and flags, as it was; after declaring
    "a" with labels ["A"], declaring "a" again with labels ["B"] fails and
    System "a" still has labels ["A"]. *)
Theorem C6_duplicate_identifier (d : Diagram) (id : string) (role : style)
    (labels : text) (stacked faded : bool) :
  id ∈ system_ids d →
  Builder.add_system id role labels stacked faded d = (Raised DuplicateIdentifier, d)
  ∧ find_system id (Builder.add_system id role labels stacked faded d).2
      = find_system id d
  ∧ (∀ f,
       Builder.add_system "a" FUNC (Lines ["B"]) false false
         (Builder.add_system "a" FUNC (Lines ["A"]) false false (Builder.create f)).2
       = (Raised DuplicateIdentifier,
          (Builder.add_system "a" FUNC (Lines ["A"]) false false (Builder.create f)).2)
       ∧ sys_labels <$>
           find_system "a"
             (Builder.add_system "a" FUNC (Lines ["B"]) false false
                (Builder.add_system "a" FUNC (Lines ["A"]) false false
                   (Builder.create f)).2).2
         = Some (Lines ["A"])).
Proof.
  intros Hin.
  assert (Hdup : Builder.add_system id role labels stacked faded d
                 = (Raised DuplicateIdentifier, d)).
  { unfold Builder.add_system. by rewrite bool_decide_eq_true_2. }
  split; [exact Hdup|]. split; [by rewrite Hdup|].
  intros f. split; reflexivity.
Qed.

Lemma C6_witness :
  Builder.add_system "opt" FUNC (Lines ["Again"]) true true
    (build (method_calls constraint_analysis_xdsm) (Builder.create true)).2
  = (Raised DuplicateIdentifier,
     (build (method_calls constraint_analysis_xdsm) (Builder.create true)).2).
Proof.
  refine (proj1 (C6_duplicate_identifier
           (build (method_calls constraint_analysis_xdsm) (Builder.create true)).2
           "opt" FUNC (Lines ["Again"]) true true _)).
  apply list_elem_of_here.
Defined.

(** ** The files finalize writes *)

Lemma append_inj_l (s a b : string) : s +:+ a = s +:+ b → a = b.
Proof. induction s as [|c s IH]; simpl; [done|]. intros [= H]. auto. Qed.

Lemma source_not_artifact (o n : string) :
  Builder.source_path o n ≠ Builder.artifact_path o n.
Proof.
  unfold Builder.source_path, Builder.artifact_path.
  intros H. do 3 apply append_inj_l in H. discriminate H.
Qed.

Lemma source_not_log (o n : string) :
  Builder.source_path o n ≠ Builder.log_path o n.
Proof.
  unfold Builder.source_path, Builder.log_path.
  intros H. do 3 apply append_inj_l in H. discriminate H.
Qed.

Section FinalizeFacts.

Context {Env : Type}.
Variable render : string → Diagram → string.
Variable toolchain : Env → string → Env * option (string * string).

(** Whatever the toolchain does, finalize leaves the typeset source of
    the Diagram at the source path. *)
Lemma finalize_source name o compile cleanup quiet d fs e :
  (Builder.finalize render toolchain name o compile cleanup quiet d fs e).2.1
    !! Builder.source_path o name = Some (render name d).
Proof.
  pose proof (source_not_artifact o name) as Ha.
  pose proof (source_not_log o name) as Hl.
  unfold Builder.finalize.
  destruct compile; [|simpl; apply lookup_insert_eq].
  destruct (toolchain e (render name d)) as [e' [[a l]|]];
    [|simpl; apply lookup_insert_eq].
  destruct cleanup; simpl.
  - rewrite lookup_delete_ne by done.
    rewrite !lookup_insert_ne by done. apply lookup_insert_eq.
  - rewrite !lookup_insert_ne by done. apply lookup_insert_eq.
Qed.

(** finalize touches the files of its own figure only. *)
Lemma finalize_other name o compile cleanup quiet d fs e (p : string) :
  p ∉ Builder.file_set o name →
  (Builder.finalize render toolchain name o compile cleanup quiet d fs e).2.1
    !! p = fs !! p.
Proof.
  intros Hp. unfold Builder.file_set in Hp.
  assert (Builder.source_path o name ≠ p) as Hs by set_solver.
  assert (Builder.artifact_path o name ≠ p) as Ha by set_solver.
  assert (Builder.log_path o name ≠ p) as Hl by set_solver.
  unfold Builder.finalize.
  destruct compile; [|simpl; by rewrite lookup_insert_ne].
  destruct (toolchain e (render name d)) as [e' [[a l]|]];
    [|simpl; by rewrite lookup_insert_ne].
  destruct cleanup; simpl.
  - rewrite lookup_delete_ne by done. by rewrite !lookup_insert_ne.
  - by rewrite !lookup_insert_ne.
Qed.

End FinalizeFacts.

(** * Running the scripts *)

Section RunFacts.

Context {Env : Type}.
Variable render : string → Diagram → string.
Variable toolchain : Env → string → Env * option (string * string).

Local Abbreviation run := (exec render toolchain).
Local Abbreviation run1 := (step render toolchain).

Lemma exec_cons (c : stmt) (s : script) (w : world) :
  run (c :: s) w
  = match run1 c w with
    | (Completed, w') => run s w'
    | stopped => stopped
    end.
Proof. reflexivity. Qed.

Lemma exec_app (s1 s2 : script) : ∀ w : world,
  run (s1 ++ s2) w
  = match run s1 w with
    | (Completed, w') => run s2 w'
    | stopped => stopped
    end.
Proof.
  induction s1 as [|c s1 IH]; intros w; [reflexivity|].
  rewrite <- app_comm_cons, !exec_cons.
  destruct (run1 c w) as [[|err|] w']; [apply IH | reflexivity | reflexivity].
Qed.

(** A run of method calls is the builder applied to the object; the
    files and the outside world are not touched. *)
Lemma exec_calls (ms : list method) : ∀ (d : Diagram) fs (e : Env),
  run (call <$> ms) (World (Some d) fs e)
  = ((build ms d).1, World (Some (build ms d).2) fs e).
Proof.
  induction ms as [|m ms IH]; intros d fs e; [reflexivity|].
  rewrite fmap_cons, exec_cons. simpl. unfold on_object. simpl.
  destruct (invoke m d) as [[|err] d']; simpl; [apply IH | reflexivity].
Qed.

Lemma loop_body_split (fs : figure_set) :
  loop_body fs
  = XDSM true :: (call <$> method_calls (loop_body fs))
      ++ [write (item0 fs) true true false "."].
Proof. reflexivity. Qed.

Lemma loop_body_builds (fs : figure_set) :
  (build (method_calls (loop_body fs)) (Builder.create true)).1 = Completed.
Proof. destruct fs. vm_compute. reflexivity. Qed.

(** One iteration of the loop, from any state: [x] ends bound to the
    iteration's own figure, and the files and the outside world are those
    finalize leaves. *)
Lemma loop_body_exec (fs : figure_set) (w : world) :
  run (loop_body fs) w
  = (finished
       (Builder.finalize render toolchain (item0 fs) "." true true false
          (figure fs) (files w) (env w)).1,
     World (Some (figure fs))
       (Builder.finalize render toolchain (item0 fs) "." true true false
          (figure fs) (files w) (env w)).2.1
       (Builder.finalize render toolchain (item0 fs) "." true true false
          (figure fs) (files w) (env w)).2.2).
Proof.
  unfold figure. rewrite loop_body_split at 1. rewrite exec_cons. cbn [step].
  rewrite exec_app, exec_calls, loop_body_builds.
  rewrite exec_cons. cbn [step x files env].
  destruct (Builder.finalize _ _ _ _ _ _ _ _ _ _) as [[|err] [fs' e']];
    reflexivity.
Qed.

Lemma loop_other_files (l : list figure_set) : ∀ (w : world) (p : string),
  (∀ fs, fs ∈ l → p ∉ Builder.file_set "." (item0 fs)) →
  files (run (flat_map loop_body l) w).2 !! p = files w !! p.
Proof.
  induction l as [|a l IH]; intros w p Hp; [reflexivity|].
  change (flat_map loop_body (a :: l)) with (loop_body a ++ flat_map loop_body l).
  rewrite exec_app, loop_body_exec.
  assert (Ha : p ∉ Builder.file_set "." (item0 a)) by (apply Hp; left).
  pose proof (finalize_other render toolchain (item0 a) "." true true false
                (figure a) (files w) (env w) p Ha) as Hother.
  destruct (Builder.finalize _ _ _ _ _ _ _ _ _ _) as [[|err] [fs' e']];
    cbn [fst snd finished files] in *.
  - rewrite IH by (intros fs Hfs; apply Hp; by right). exact Hother.
  - exact Hother.
Qed.

(** When the whole loop completes, every figure's source is in place:
    a later iteration never writes over an earlier one's files, as long
    as the file sets are pairwise disjoint. *)
Lemma loop_sources (l : list figure_set) : ∀ (w w' : world),
  NoDup (flat_map (fun fs => Builder.file_set "." (item0 fs)) l) →
  run (flat_map loop_body l) w = (Completed, w') →
  ∀ fs, fs ∈ l →
    files w' !! Builder.source_path "." (item0 fs)
    = Some (render (item0 fs) (figure fs)).
Proof.
  induction l as [|a l IH]; intros w w' Hnd Hex fs Hfs;
    [by apply elem_of_nil in Hfs|].
  change (flat_map loop_body (a :: l))
    with (loop_body a ++ flat_map loop_body l) in Hex.
  rewrite exec_app, loop_body_exec in Hex.
  change (flat_map (fun fs => Builder.file_set "." (item0 fs)) (a :: l))
    with (Builder.file_set "." (item0 a)
          ++ flat_map (fun fs => Builder.file_set "." (item0 fs)) l) in Hnd.
  apply NoDup_app in Hnd as (_ & Hdisj & Hnd).
  pose proof (finalize_source render toolchain (item0 a) "." true true false
                (figure a) (files w) (env w)) as Hsrc.
  destruct (Builder.finalize _ _ _ _ _ _ _ _ _ _) as [[|err] [fs' e']];
    cbn [fst snd finished] in *; [|discriminate].
  apply elem_of_cons in Hfs as [-> | Hfs].
  - assert (w' = (run (flat_map loop_body l)
                    (World (Some (figure a)) fs' e')).2) as ->
      by (by rewrite Hex).
    rewrite loop_other_files; [exact Hsrc|].
    intros other Hother Hin.
    apply (Hdisj (Builder.source_path "." (item0 a))); [left|].
    apply list_elem_of_In, in_flat_map. exists other.
    split; by apply list_elem_of_In.
  - exact (IH _ _ Hnd Hex fs Hfs).
Qed.

End RunFacts.

(** ** The weight-estimation variants *)

(** C4. The Diagram of iteration [i] of the weight-estimation loop is the
    loop body at [figure_sets[i]]: its statements are those of every other
    variant but for the four faded flags and the figure name, which are
    the entries of [figure_sets[i]], and whatever state the iteration
    starts from, [x] ends bound to the figure built from a fresh object. *)
Theorem C4_variants_from_configuration (i : nat) (fs : figure_set) :
  figure_sets !! i = Some fs →
  diagrams weight_estimation_xdsm !! i = Some (loop_body fs)
  ∧ (∀ other, other ∈ figure_sets →
       erase_variant <$> loop_body other = erase_variant <$> loop_body fs)
  ∧ faded_flags (loop_body fs)
    = [ ("mission_segment", item1 fs); ("fuel", item2 fs)
      ; ("takeoff", item3 fs); ("empty", item4 fs) ]
  ∧ written (loop_body fs) = [(".", item0 fs)]
  ∧ (∀ (Env : Type) (render : string → Diagram → string)
       (toolchain : Env → string → Env * option (string * string))
       (w : world),
       x (exec render toolchain (loop_body fs) w).2 = Some (figure fs)).
Proof.
  intros Hi. split; [|split; [|split; [|split]]].
  - rewrite weight_estimation_diagrams, list_lookup_fmap, Hi. reflexivity.
  - intros other _. reflexivity.
  - reflexivity.
  - reflexivity.
  - intros Env render toolchain w. rewrite loop_body_exec. reflexivity.
Qed.

Lemma C4_witness :
  diagrams weight_estimation_xdsm !! 2
    = Some (loop_body (FigureSet "FuelWeightXDSM" true false true true))
  ∧ faded_flags (loop_body (FigureSet "FuelWeightXDSM" true false true true))
    = [ ("mission_segment", true); ("fuel", false)
      ; ("takeoff", true); ("empty", true) ]
  ∧ written (loop_body (FigureSet "FuelWeightXDSM" true false true true))
    = [(".", "FuelWeightXDSM")].
Proof.
  pose proof (C4_variants_from_configuration 2
                (FigureSet "FuelWeightXDSM" true false true true) eq_refl)
    as (Hd & _ & Hf & Hw & _).
  exact (conj Hd (conj Hf Hw)).
Defined.

(** C10. The six figure names of [figure_sets] are pairwise distinct; the
    six [write] calls go to the directory "." under these names, so their
    file sets are pairwise disjoint, and when the loop completes the source
    of every figure is in place, none overwritten by a later iteration. *)
Theorem C10_distinct_figure_names :
  NoDup (item0 <$> figure_sets)
  ∧ written weight_estimation_xdsm = (fun fs => (".", item0 fs)) <$> figure_sets
  ∧ NoDup (written_files weight_estimation_xdsm)
  ∧ (∀ (Env : Type) (render : string → Diagram → string)
       (toolchain : Env → string → Env * option (string * string))
       (w w' : world),
       exec render toolchain weight_estimation_xdsm w = (Completed, w') →
       ∀ fs, fs ∈ figure_sets →
         files w' !! Builder.source_path "." (item0 fs)
         = Some (render (item0 fs) (figure fs))).
Proof.
  split; [|split; [|split]].
  - by_computation.
  - reflexivity.
  - by_computation.
  - intros Env render toolchain w w' Hex fs Hfs.
    apply (loop_sources render toolchain figure_sets w w'); [|exact Hex|exact Hfs].
    by_computation.
Qed.

Lemma C10_witness :
  files (exec (fun name _ => name) (fun (e : nat) s => (S e, Some (s, s)))
           weight_estimation_xdsm (start ∅ 0)).2
    !! Builder.source_path "." "EmptyWeightXDSM"
  = Some "EmptyWeightXDSM".
Proof.
  refine (proj2 (proj2 (proj2 C10_distinct_figure_names)) nat
            (fun name _ => name) (fun (e : nat) s => (S e, Some (s, s)))
            (start ∅ 0) _ _
            (FigureSet "EmptyWeightXDSM" true true true false) _).
  - vm_compute. reflexivity.
  - do 4 apply list_elem_of_further. apply list_elem_of_here.
Defined.

(** * Further properties of the scripts *)

Ltac for_all_by_computation :=
  apply (proj1 (bool_decide_eq_true _)); vm_compute; reflexivity.

(** X1. Every Diagram of either script is constructed with
    [use_sfmath=True], then receives method calls only, and is written
    exactly once, by its last statement, with [build=True], [cleanup=True],
    [quiet=False] into the directory "."; nothing is called on it after
    [write]. *)
Theorem X1_written_once_at_the_end :
  Forall (fun d => ∃ name,
            d = XDSM true :: (call <$> method_calls d)
                  ++ [write name true true false "."])
         built_diagrams.
Proof.
  rewrite built_diagrams_eq. apply Forall_cons. split.
  - eexists. reflexivity.
  - apply Forall_fmap, Forall_forall. intros fs _.
    exists (item0 fs). reflexivity.
Qed.

(** X2. In every Diagram of either script no [connect] call joins a System
    to itself, and no ordered pair of Systems is connected twice. *)
Theorem X2_connections_simple :
  Forall (fun d => NoDup (edges d) ∧ Forall (fun e => e.1 ≠ e.2) (edges d))
         built_diagrams.
Proof. for_all_by_computation. Qed.


(** X4. In every Diagram of either script no System is given an Input
    twice and exactly one System is given an Output, once. *)
Theorem X4_annotations_once :
  Forall (fun d => NoDup (input_targets d) ∧ length (output_targets d) = 1)
         built_diagrams.
Proof. for_all_by_computation. Qed.

(** X5. In every Diagram of either script every declared System is the
    source of at least one Connection, and every declared System receives
    data: it is the target of a Connection or has an Input. *)
Theorem X5_no_isolated_system :
  Forall (fun d =>
            Forall (fun i => i ∈ (edges d).*1
                             ∧ (i ∈ (edges d).*2 ∨ i ∈ input_targets d))
                   (declared d))
         built_diagrams.
Proof. for_all_by_computation. Qed.

(** X6. In every weight-estimation Diagram the Process visits every
    declared System and traverses every Connection exactly once: its hops
    are pairwise distinct and are the same pairs as the Connections. *)
Theorem X6_process_covers_diagram :
  Forall (fun d =>
            Forall (fun p => NoDup (hops p)
                             ∧ Forall (fun e => e ∈ hops p) (edges d)
                             ∧ Forall (fun h => h ∈ edges d) (hops p)
                             ∧ Forall (fun i => i ∈ p) (declared d))
                   (processes d)
            ∧ length (hops <$> processes d) = 1)
         (diagrams weight_estimation_xdsm).
Proof. for_all_by_computation. Qed.

(** X7. In the constraint-analysis Diagram every implicit-function System
    (stall, climb, cruise, others) receives a Connection from aero and
    sends one to opt, and there is no other kind of Connection: each one
    goes from opt or aero to an implicit-function System, or from an
    implicit-function System to opt. *)
Theorem X7_constraint_analysis_shape :
  implicit_systems constraint_analysis_xdsm = ["stall"; "climb"; "cruise"; "others"]
  ∧ Forall (fun n => ("aero", n) ∈ edges constraint_analysis_xdsm
                     ∧ (n, "opt") ∈ edges constraint_analysis_xdsm)
      (implicit_systems constraint_analysis_xdsm)
  ∧ Forall (fun e =>
              (e.1 ∈ ["opt"; "aero"]
               ∧ e.2 ∈ implicit_systems constraint_analysis_xdsm)
              ∨ (e.1 ∈ implicit_systems constraint_analysis_xdsm ∧ e.2 = "opt"))
      (edges constraint_analysis_xdsm).
Proof.
  split; [reflexivity|]. split; for_all_by_computation.
Qed.

(** ** The figures of the weight-estimation family *)

Lemma figure_faded (fs : figure_set) :
  sys_faded <$> systems (figure fs) = [item1 fs; item2 fs; item3 fs; item4 fs].
Proof. destruct fs. vm_compute. reflexivity. Qed.

(** X8. The figure an iteration builds depends on its [figure_sets] entry
    through the four faded flags only, and two entries with different
    flags give different Diagrams; the six entries of [figure_sets] give
    six pairwise different Diagrams, none of them with all four Systems
    faded. *)
Theorem X8_six_different_figures :
  (∀ fs fs', figure fs = figure fs' ↔ flags fs = flags fs')
  ∧ NoDup (figure <$> figure_sets)
  ∧ Forall (fun fs => flags fs ≠ (true, true, true, true)) figure_sets.
Proof.
  assert (Hiff : ∀ fs fs', figure fs = figure fs' ↔ flags fs = flags fs').
  { intros fs fs'. split.
    - intros H. apply (f_equal (fun d => sys_faded <$> systems d)) in H.
      rewrite !figure_faded in H. unfold flags. congruence.
    - destruct fs, fs'. unfold flags. simpl. intros [= -> -> -> ->].
      vm_compute. reflexivity. }
  split; [exact Hiff|]. split; [|for_all_by_computation].
  apply NoDup_fmap_2_strong; [|for_all_by_computation].
  intros fs fs' Hfs Hfs' Heq%Hiff.
  assert (Hall : Forall (fun a => Forall (fun b => flags a = flags b → a = b)
                                    figure_sets) figure_sets)
    by for_all_by_computation.
  rewrite Forall_forall in Hall. specialize (Hall fs Hfs).
  rewrite Forall_forall in Hall. exact (Hall fs' Hfs' Heq).
Qed.

(** ** Runs of the whole scripts *)

Section ScriptRuns.

Context {Env : Type}.
Variable render : string → Diagram → string.
Variable toolchain : Env → string → Env * option (string * string).

Local Abbreviation run := (exec render toolchain).

Lemma finalize_outcome name o compile cleanup quiet d fs e :
  (Builder.finalize render toolchain name o compile cleanup quiet d fs e).1
    = Returned
  ∨ (Builder.finalize render toolchain name o compile cleanup quiet d fs e).1
    = Raised ExternalRenderingFailure.
Proof.
  unfold Builder.finalize. destruct compile; [|by left].
  destruct (toolchain e (render name d)) as [e' [[a l]|]]; [by left | by right].
Qed.

Lemma finalize_succeeds name o compile cleanup quiet d fs e :
  (∀ e0 s, is_Some (toolchain e0 s).2) →
  (Builder.finalize render toolchain name o compile cleanup quiet d fs e).1
    = Returned.
Proof.
  intros Hok. unfold Builder.finalize. destruct compile; [|done].
  specialize (Hok e (render name d)).
  destruct (toolchain e (render name d)) as [e' [[a l]|]]; [done|].
  by destruct Hok.
Qed.

Lemma constraint_analysis_exec (w : world) :
  run constraint_analysis_xdsm w
  = (finished
       (Builder.finalize render toolchain "ConstraintAnalysisXDSM" "." true true
          false (build (method_calls constraint_analysis_xdsm)
                   (Builder.create true)).2 (files w) (env w)).1,
     World (Some (build (method_calls constraint_analysis_xdsm)
                    (Builder.create true)).2)
       (Builder.finalize render toolchain "ConstraintAnalysisXDSM" "." true true
          false (build (method_calls constraint_analysis_xdsm)
                   (Builder.create true)).2 (files w) (env w)).2.1
       (Builder.finalize render toolchain "ConstraintAnalysisXDSM" "." true true
          false (build (method_calls constraint_analysis_xdsm)
                   (Builder.create true)).2 (files w) (env w)).2.2).
Proof.
  assert (Hsplit : constraint_analysis_xdsm
                   = XDSM true :: (call <$> method_calls constraint_analysis_xdsm)
                       ++ [write "ConstraintAnalysisXDSM" true true false "."])
    by reflexivity.
  assert (Hok : (build (method_calls constraint_analysis_xdsm)
                   (Builder.create true)).1 = Completed)
    by (vm_compute; reflexivity).
  rewrite Hsplit at 1. rewrite exec_cons. cbn [step].
  rewrite exec_app, exec_calls, Hok.
  rewrite exec_cons. cbn [step x files env].
  destruct (Builder.finalize _ _ _ _ _ _ _ _ _ _) as [[|err] [fs' e']];
    reflexivity.
Qed.

Lemma loop_status (l : list figure_set) : ∀ w : world,
  only_rendering_can_fail (run (flat_map loop_body l) w).1.
Proof.
  induction l as [|a l IH]; intros w; [by left|].
  change (flat_map loop_body (a :: l)) with (loop_body a ++ flat_map loop_body l).
  rewrite exec_app, loop_body_exec.
  destruct (finalize_outcome (item0 a) "." true true false (figure a)
              (files w) (env w)) as [-> | ->]; cbn [finished].
  - apply IH.
  - by right.
Qed.

Lemma loop_completes (l : list figure_set) : ∀ w : world,
  (∀ e0 s, is_Some (toolchain e0 s).2) →
  (run (flat_map loop_body l) w).1 = Completed.
Proof.
  induction l as [|a l IH]; intros w Hok; [reflexivity|].
  change (flat_map loop_body (a :: l)) with (loop_body a ++ flat_map loop_body l).
  rewrite exec_app, loop_body_exec, finalize_succeeds by exact Hok.
  cbn [finished]. by apply IH.
Qed.

End ScriptRuns.

(** X9. Whatever the renderer and the toolchain do and whatever files are
    there, a run of either script from its start never ends in
    DuplicateIdentifier or UnknownSystem nor in a call on an unbound [x]:
    it completes, or it stops on a failure of the external rendering. *)
Theorem X9_only_rendering_can_fail {Env : Type}
    (render : string → Diagram → string)
    (toolchain : Env → string → Env * option (string * string))
    (fs : gmap string string) (e : Env) :
  only_rendering_can_fail
    (exec render toolchain constraint_analysis_xdsm (start fs e)).1
  ∧ only_rendering_can_fail
      (exec render toolchain weight_estimation_xdsm (start fs e)).1.
Proof.
  split.
  - rewrite constraint_analysis_exec. cbn [fst].
    destruct (finalize_outcome render toolchain "ConstraintAnalysisXDSM" "."
                true true false
                (build (method_calls constraint_analysis_xdsm)
                   (Builder.create true)).2 (files (start fs e))
                (env (start fs e))) as [-> | ->]; [by left | by right].
  - apply loop_status.
Qed.

(** X10. When the toolchain compiles every source, both scripts run to
    completion, and the constraint-analysis run leaves its typeset source
    and its compiled artifact in the directory ".". *)
Theorem X10_scripts_complete {Env : Type}
    (render : string → Diagram → string)
    (toolchain : Env → string → Env * option (string * string))
    (fs : gmap string string) (e : Env) :
  (∀ e0 s, is_Some (toolchain e0 s).2) →
  (exec render toolchain constraint_analysis_xdsm (start fs e)).1 = Completed
  ∧ (exec render toolchain weight_estimation_xdsm (start fs e)).1 = Completed
  ∧ is_Some (files (exec render toolchain constraint_analysis_xdsm (start fs e)).2
               !! Builder.source_path "." "ConstraintAnalysisXDSM")
  ∧ is_Some (files (exec render toolchain constraint_analysis_xdsm (start fs e)).2
               !! Builder.artifact_path "." "ConstraintAnalysisXDSM").
Proof.
  intros Hok. split; [|split].
  - rewrite constraint_analysis_exec. cbn [fst].
    by rewrite finalize_succeeds.
  - by apply loop_completes.
  - rewrite constraint_analysis_exec. cbn [snd files start env].
    unfold Builder.finalize.
    specialize (Hok e (render "ConstraintAnalysisXDSM"
                         (build (method_calls constraint_analysis_xdsm)
                            (Builder.create true)).2)).
    destruct (toolchain e _) as [e' [[a l]|]]; [|by destruct Hok].
    cbn [fst snd].
    assert (Builder.artifact_path "." "ConstraintAnalysisXDSM"
            ≠ Builder.log_path "." "ConstraintAnalysisXDSM") as Hal by done.
    pose proof (source_not_log "." "ConstraintAnalysisXDSM") as Hsl.
    pose proof (source_not_artifact "." "ConstraintAnalysisXDSM") as Hsa.
    split.
    + rewrite lookup_delete_ne, !lookup_insert_ne, lookup_insert_eq by done. done.
    + rewrite lookup_delete_ne, lookup_insert_ne, lookup_insert_eq by done. done.
Qed.

Lemma X10_witness :
  (exec (fun name _ => name) (fun (e : nat) s => (S e, Some (s, s)))
     constraint_analysis_xdsm (start ∅ 0)).1 = Completed
  ∧ (exec (fun name _ => name) (fun (e : nat) s => (S e, Some (s, s)))
       weight_estimation_xdsm (start ∅ 0)).1 = Completed.
Proof.
  pose proof (X10_scripts_complete (fun name _ => name)
                (fun (e : nat) s => (S e, Some (s, s))) ∅ 0
                (fun e0 s => ex_intro _ (s, s) eq_refl)) as (H1 & H2 & _).
  exact (conj H1 H2).
Defined.

(** X11. The loop of the weight-estimation script handles no failure: when
    the toolchain fails on one figure after the earlier ones were written,
    the run stops there with ExternalRenderingFailure and the later
    figures are never built; but for the files of the failing figure,
    the files are as the earlier iterations left them. *)
Theorem X11_failure_stops_the_batch {Env : Type}
    (render : string → Diagram → string)
    (toolchain : Env → string → Env * option (string * string))
    (earlier later : list figure_set) (a : figure_set) (w w1 : world) :
  exec render toolchain (flat_map loop_body earlier) w = (Completed, w1) →
  (toolchain (env w1) (render (item0 a) (figure a))).2 = None →
  (exec render toolchain (flat_map loop_body (earlier ++ a :: later)) w).1
    = Aborted ExternalRenderingFailure
  ∧ x (exec render toolchain (flat_map loop_body (earlier ++ a :: later)) w).2
    = Some (figure a)
  ∧ ∀ p, p ∉ Builder.file_set "." (item0 a) →
      files (exec render toolchain (flat_map loop_body (earlier ++ a :: later)) w).2
        !! p = files w1 !! p.
Proof.
  intros Hearlier Hfail.
  rewrite flat_map_app, exec_app, Hearlier.
  change (flat_map loop_body (a :: later))
    with (loop_body a ++ flat_map loop_body later).
  rewrite exec_app, loop_body_exec.
  pose proof (finalize_other render toolchain (item0 a) "." true true false
                (figure a) (files w1) (env w1)) as Hother.
  assert (Hraised :
    (Builder.finalize render toolchain (item0 a) "." true true false
       (figure a) (files w1) (env w1)).1 = Raised ExternalRenderingFailure).
  { unfold Builder.finalize.
    destruct (toolchain (env w1) (render (item0 a) (figure a)))
      as [e' [[art l]|]]; [discriminate Hfail | reflexivity]. }
  rewrite Hraised. cbn [finished fst snd x files].
  split; [reflexivity|]. split; [reflexivity|]. exact Hother.
Qed.

Lemma X11_witness :
  (exec (fun name _ => name)
     (fun (e : nat) s => (S e, if Nat.ltb e 2 then Some (s, s) else None))
     weight_estimation_xdsm (start ∅ 0)).1
  = Aborted ExternalRenderingFailure
  ∧ files (exec (fun name _ => name)
             (fun (e : nat) s => (S e, if Nat.ltb e 2 then Some (s, s) else None))
             weight_estimation_xdsm (start ∅ 0)).2
      !! Builder.source_path "." "TakeoffWeightXDSM" = None.
Proof.
  pose proof (X11_failure_stops_the_batch (fun name _ => name)
                (fun (e : nat) s => (S e, if Nat.ltb e 2 then Some (s, s) else None))
                [ FigureSet "WeightEstimationXDSM" false false false false
                ; FigureSet "MissionSegmentWeightXDSM" false true true true ]
                [ FigureSet "TakeoffWeightXDSM" true true false true
                ; FigureSet "EmptyWeightXDSM" true true true false
                ; FigureSet "TakeoffEmptyWeightXDSM" true true false false ]
                (FigureSet "FuelWeightXDSM" true false true true)
                (start ∅ 0)
                (exec (fun name _ => name)
                   (fun (e : nat) s => (S e, if Nat.ltb e 2 then Some (s, s) else None))
                   (flat_map loop_body
                      [ FigureSet "WeightEstimationXDSM" false false false false
                      ; FigureSet "MissionSegmentWeightXDSM" false true true true ])
                   (start ∅ 0)).2) as H.
  destruct H as (Hst & _ & Hfiles).
  - vm_compute. reflexivity.
  - vm_compute. reflexivity.
  - split; [exact Hst|].
    refine (eq_trans (Hfiles (Builder.source_path "." "TakeoffWeightXDSM") _) _).
    + for_all_by_computation.
    + vm_compute. reflexivity.
Defined.
